(** * Diabetes risk predictor: BMI, risk scoring, tiers and assessment history

    A shallow embedding of the Streamlit application under [src/app]:
    [utils.py] (BMI, predictor, classifier), [state.py] (session state and
    history), [pages/risk.py] and [pages/Results.py] (the assessment
    workflow) and the point-score classifier of [leggo.py].

    Python [float] is IEEE 754 binary64, which is what Rocq's primitive
    [float] is, so every floating-point operation below is the very operation
    the interpreter performs.  Python [int] is [Z].  Exceptions are values of
    [result]; session state is threaded explicitly. *)

From Stdlib Require Import ZArith List String Bool Lia Floats.
Import ListNotations.

Set Warnings "-inexact-float".

Open Scope string_scope.
Open Scope Z_scope.

(** ** Python runtime: exceptions and numbers *)

Module Py.

(** The exception classes this code can raise; all derive from
    [Exception]. *)
Inductive exn : Type :=
| KeyError
| ZeroDivisionError
| OverflowError
| ValueError
| TypeError
| IndexError
| AttributeError.

Inductive result (A : Type) : Type :=
| Ok (a : A)
| Raise (e : exn).
Arguments Ok {A} a.
Arguments Raise {A} e.

Definition bind {A B : Type} (r : result A) (k : A -> result B) : result B :=
  match r with
  | Ok a => k a
  | Raise e => Raise e
  end.

(** A number as it may sit in a list handed to a predictor. *)
Inductive pynum : Type :=
| PyNone
| PyInt (z : Z)
| PyFloat (f : float).

(** Truth value of an [int] and of a [float] ([nan] is true). *)
Definition truthy_int (z : Z) : bool := negb (z =? 0).
Definition truthy_float (x : float) : bool := negb (x =? 0)%float.

(** Truth value of [d.get(k)] where the stored value is [None] or a
    number. *)
Definition truthy_opt {A : Type} (truthy : A -> bool) (o : option A) : bool :=
  match o with
  | Some a => truthy a
  | None => false
  end.

(** [float(z)] for an [int]: rounded to nearest, ties to even;
    [OverflowError] when the value does not fit. *)
Definition float_of_int (z : Z) : result float :=
  let f := SF2Prim (binary_normalize prec emax z 0 false) in
  if is_infinity f then Raise OverflowError else Ok f.

(** [min(a, b)] and [max(a, b)] on two floats: the first argument is kept
    unless the second is strictly smaller (resp. larger). *)
Definition min (a b : float) : float := if (b <? a)%float then b else a.
Definition max (a b : float) : float := if (a <? b)%float then b else a.

(** Nearest integer to [n / d] for [0 <= n], [0 < d], ties to even. *)
Definition round_half_even (n d : Z) : Z :=
  let q := n / d in
  match 2 * (n mod d) ?= d with
  | Lt => q
  | Gt => q + 1
  | Eq => if Z.even q then q else q + 1
  end.

(** The binary64 value nearest to [(-1)^s * n / d], for [0 <= n], [0 < d]:
    what parsing the decimal numeral yields. *)
Definition nearest_float (s : bool) (n d : Z) : float :=
  let '(m, e, l) := SFdiv_core_binary prec emax n 0 d 0 in
  SF2Prim (binary_round_aux prec emax s m e l).

(** [round(x, 1)]: the exact value of [x] is rounded to the closest
    multiple of one tenth, ties to the even multiple, and the decimal
    obtained is read back as a float; zeros, infinities and [nan] round to
    themselves. *)
Definition round1 (x : float) : float :=
  match Prim2SF x with
  | S754_finite s m e =>
      if 0 <=? e then x
      else nearest_float s (round_half_even (10 * Zpos m) (2 ^ (- e))) 10
  | _ => x
  end.

(** [round(x)]: nearest [int], ties to even; [nan] and infinities raise. *)
Definition round0 (x : float) : result Z :=
  match Prim2SF x with
  | S754_zero _ => Ok 0
  | S754_finite s m e =>
      let a := if 0 <=? e then Zpos m * 2 ^ e
               else round_half_even (Zpos m) (2 ^ (- e)) in
      Ok (if s then - a else a)
  | S754_infinity _ => Raise OverflowError
  | S754_nan => Raise ValueError
  end.

(** [int(x)]: truncation toward zero; [nan] and infinities raise. *)
Definition int_of_float (x : float) : result Z :=
  match Prim2SF x with
  | S754_zero _ => Ok 0
  | S754_finite s m e =>
      let a := if 0 <=? e then Zpos m * 2 ^ e else Zpos m / 2 ^ (- e) in
      Ok (if s then - a else a)
  | S754_infinity _ => Raise OverflowError
  | S754_nan => Raise ValueError
  end.

End Py.

Import Py.

Declare Scope py_scope.
Delimit Scope py_scope with py.
Notation "x <- c1 ;; c2" := (Py.bind c1 (fun x => c2))
  (at level 61, c1 at next level, right associativity) : py_scope.

(** ** [src/app/utils.py] *)

Module Utils.

(** [calc_bmi(weight_kg, height_cm)].  The result [Ok None] is Python's
    [None]; the division raises when [h_m * h_m] is zero. *)
Definition calc_bmi (weight_kg height_cm : option float) : result (option float) :=
  match weight_kg, height_cm with
  | Some w, Some h =>
      if negb (truthy_float w) || negb (truthy_float h) || (h <=? 0)%float
      then Ok None
      else
        let h_m := (h / 100)%float in
        let d := (h_m * h_m)%float in
        if (d =? 0)%float then Raise ZeroDivisionError
        else Ok (Some (round1 (w / d)%float))
  | _, _ => Ok None
  end.

(** The feature dictionary handed to the predictor is the form dictionary
    of [state.py]: it always carries the four keys, each holding [None]
    or a number ([age] an [int], the others [float]). *)
Record Form : Type := mkForm {
  age : option Z;
  weight : option float;
  height : option float;
  bmi : option float
}.

(** A loaded model, seen through the one expression the code evaluates on
    it: [float(_model.predict_proba(X)[0][1])], or the exception raised
    on the way. *)
Definition predictor : Type := list (list pynum) -> result float.

Definition num_of_int (o : option Z) : pynum :=
  match o with Some z => PyInt z | None => PyNone end.
Definition num_of_float (o : option float) : pynum :=
  match o with Some f => PyFloat f | None => PyNone end.

(** [features.get("age") or 0] and [features.get("bmi") or 0].  The
    [int] zero standing in for a missing [bmi] behaves as [0.0] in the one
    test made on it. *)
Definition age_or_0 (features : Form) : Z :=
  match age features with
  | Some a => if truthy_int a then a else 0
  | None => 0
  end.
Definition bmi_or_0 (features : Form) : float :=
  match bmi features with
  | Some b => if truthy_float b then b else 0%float
  | None => 0%float
  end.

(** The fallback score, below the [try] block of [model_predict_prob]. *)
Definition fallback_score (features : Form) : result float :=
  (let age := age_or_0 features in
   let bmi := bmi_or_0 features in
   let score := 0%float in
   da <- (if 30 <? age
          then (x <- float_of_int (age - 30) ;; Ok (x * 0.01)%float)
          else Ok 0%float) ;;
   let score := (score + da)%float in
   let db := if (25 <? bmi)%float then ((bmi - 25) * 0.02)%float else 0%float in
   let score := (score + db)%float in
   Ok (Py.max 0 (Py.min 1 score)))%py.

(** [model_predict_prob(features)], with the module-level [_model] as a
    parameter ([None] when no model file could be loaded). *)
Definition model_predict_prob (_model : option predictor) (features : Form)
  : result float :=
  match _model with
  | Some m =>
      let X := [[num_of_int (age features); num_of_float (bmi features)]] in
      match m X with
      | Ok prob => Ok (Py.max 0 (Py.min 1 prob))
      | Raise _ => fallback_score features
      end
  | None => fallback_score features
  end.

Definition label_from_prob (p : float) : string :=
  if (p <? 0.34)%float then "Low"
  else if (p <? 0.67)%float then "Medium"
  else "High".

End Utils.

Import Utils.

(** ** [src/app/state.py] *)

Module State.

(** The dictionary stored under [CURRENT_RESULT_KEY]; a field is [None]
    when the dictionary lacks the key. *)
Record Result : Type := mkResult {
  prob : option float;
  label : option string;
  created_at : option string;
  inputs : option Form
}.

(** One entry of the history list built by [save_assessment]. *)
Record AssessmentRecord : Type := mkRecord {
  rec_created_at : string;
  rec_age : option Z;
  rec_weight : option float;
  rec_height : option float;
  rec_bmi : option float;
  risk_prob : option float;
  risk_label : option string
}.

(** [st.session_state], restricted to the three keys of this module.  A
    field is [None] when the key is not in the session; the value stored
    under [CURRENT_RESULT_KEY] is itself [None] or a dictionary. *)
Record session_state : Type := mkSession {
  assessments : option (list AssessmentRecord);
  current_form : option Form;
  current_result : option (option Result)
}.

Definition set_assessments (v : list AssessmentRecord) (s : session_state) :=
  mkSession (Some v) (current_form s) (current_result s).
Definition set_current_form (v : Form) (s : session_state) :=
  mkSession (assessments s) (Some v) (current_result s).
Definition set_current_result (v : option Result) (s : session_state) :=
  mkSession (assessments s) (current_form s) (Some v).

(** Code that reads and writes the session and may raise: the session
    keeps the writes made before an exception. *)
Definition St (A : Type) : Type := session_state -> result A * session_state.

Definition ret {A : Type} (a : A) : St A := fun s => (Ok a, s).
Definition raise {A : Type} (e : exn) : St A := fun s => (Raise e, s).
Definition lift {A : Type} (r : result A) : St A := fun s => (r, s).
Definition bind {A B : Type} (c : St A) (k : A -> St B) : St B :=
  fun s =>
    match c s with
    | (Ok a, s') => k a s'
    | (Raise e, s') => (Raise e, s')
    end.
Definition modify (f : session_state -> session_state) : St unit :=
  fun s => (Ok tt, f s).

(** [st.session_state[KEY]]: [KeyError] when the key is missing. *)
Definition get_item {A : Type} (field : session_state -> option A) : St A :=
  fun s =>
    match field s with
    | Some v => (Ok v, s)
    | None => (Raise KeyError, s)
    end.

Definition empty_form : Form := mkForm None None None None.

Definition ensure_state (s : session_state) : session_state :=
  let s := match assessments s with
           | None => set_assessments [] s
           | Some _ => s
           end in
  let s := match current_form s with
           | None => set_current_form empty_form s
           | Some _ => s
           end in
  match current_result s with
  | None => set_current_result None s
  | Some _ => s
  end.

End State.

Import State.

Declare Scope st_scope.
Delimit Scope st_scope with st.
Notation "x <- c1 ;; c2" := (State.bind c1 (fun x => c2))
  (at level 61, c1 at next level, right associativity) : st_scope.
Notation "c1 ;; c2" := (State.bind c1 (fun _ => c2))
  (at level 61, right associativity) : st_scope.

Module History.

(** The dictionary [data] of [save_assessment]: the time stamp and the
    scores come from [result], the four inputs from the form. *)
Definition record_of (now : string) (result : Result) (form : Form)
  : AssessmentRecord :=
  {| rec_created_at := match created_at result with
                       | Some t => t
                       | None => now
                       end;
     rec_age := age form;
     rec_weight := weight form;
     rec_height := height form;
     rec_bmi := bmi form;
     risk_prob := prob result;
     risk_label := label result |}.

(** [save_assessment(result)]; [now] is [datetime.utcnow().isoformat()]
    read at the call. *)
Definition save_assessment (now : string) (result : Result) : St unit :=
  (modify ensure_state ;;
   form <- get_item current_form ;;
   let data := record_of now result form in
   hist <- get_item assessments ;;
   modify (set_assessments (hist ++ [data])))%st.

Definition clear_current : St unit :=
  (modify (set_current_form empty_form) ;;
   modify (set_current_result None))%st.

End History.

Import History.

(** ** The pages *)

(** How a run of a page script ends: rendered to its last line, stopped by
    [st.stop()] after an error or a warning message, or left through
    [st.switch_page] for the Results page. *)
Inductive outcome : Type :=
| Rendered
| StopError (msg : string)
| StopWarning (msg : string)
| SwitchToResults.

(** *** [src/app/pages/risk.py] *)

Module Risk.

(** What the widgets return in one run of the script: the three number
    inputs (an [int] and two [float]s, the value shown at first included)
    and the submit button. *)
Record widgets : Type := mkWidgets {
  w_age : Z;
  w_weight : float;
  w_height : float;
  submitted : bool
}.

Definition set_age v (f : Form) := mkForm v (weight f) (height f) (bmi f).
Definition set_weight v (f : Form) := mkForm (age f) v (height f) (bmi f).
Definition set_height v (f : Form) := mkForm (age f) (weight f) v (bmi f).
Definition set_bmi v (f : Form) := mkForm (age f) (weight f) (height f) v.

(** [form["k"] = v] on the dictionary stored in the session. *)
Definition form_assign (upd : Form -> Form) : St unit :=
  (form <- get_item current_form ;;
   modify (set_current_form (upd form)))%st.

(** The body of the [st.form] block: the inputs are written into the
    form and the BMI is derived once weight and height are there. *)
Definition collect (w : widgets) : St unit :=
  (form_assign (set_age (Some (w_age w))) ;;
   form_assign (set_weight (Some (w_weight w))) ;;
   form_assign (set_height (Some (w_height w))) ;;
   form <- get_item current_form ;;
   if truthy_opt truthy_float (weight form) && truthy_opt truthy_float (height form)
   then (b <- lift (calc_bmi (weight form) (height form)) ;;
         form_assign (set_bmi b))
   else ret tt)%st.

(** [all([form.get("age"), form.get("weight"), form.get("height"),
    form.get("bmi")])]. *)
Definition complete (form : Form) : bool :=
  truthy_opt truthy_int (age form) && truthy_opt truthy_float (weight form)
  && truthy_opt truthy_float (height form) && truthy_opt truthy_float (bmi form).

(** The [if submitted:] block. *)
Definition on_submit (_model : option predictor) (now : string) : St outcome :=
  (form <- get_item current_form ;;
   if negb (complete form)
   then ret (StopError "Please complete all fields before continuing.")
   else
     (prob <- lift (model_predict_prob _model form) ;;
      let label := label_from_prob prob in
      modify (set_current_result
                (Some (mkResult (Some prob) (Some label) (Some now) (Some form)))) ;;
      ret SwitchToResults))%st.

(** One run of the page script. *)
Definition page (_model : option predictor) (w : widgets) (now : string)
  : St outcome :=
  (modify ensure_state ;;
   collect w ;;
   if submitted w then on_submit _model now else ret Rendered)%st.

End Risk.

(** *** [src/app/pages/Results.py] *)

Module Results.

(** [not res]: it holds of [None] and of the empty dictionary. *)
Definition falsy (res : option Result) : bool :=
  match res with
  | None => true
  | Some r =>
      match prob r, label r, created_at r, inputs r with
      | None, None, None, None => true
      | _, _, _, _ => false
      end
  end.

Definition lookup {A : Type} (o : option A) : St A :=
  match o with
  | Some v => ret v
  | None => raise KeyError
  end.

(** One run of the page script; [now] is the clock read inside
    [save_assessment]. *)
Definition page (now : string) : St outcome :=
  (modify ensure_state ;;
   res <- get_item current_result ;;
   match res with
   | Some r =>
       if falsy res
       then ret (StopWarning "No recent assessment found. Please complete the assessment first.")
       else
         (p <- lookup (prob r) ;;
          _ <- lookup (label r) ;;
          _ <- lift (round0 (p * 100)%float) ;;
          save_assessment now r ;;
          ret Rendered)
   | None =>
       ret (StopWarning "No recent assessment found. Please complete the assessment first.")
   end)%st.

End Results.

(** ** [src/app/leggo.py]: the point-score classifier *)

Module Leggo.

(** The [user_data] dictionary; a field is [None] when the key is
    missing. *)
Record user_data : Type := mkUserData {
  ud_age : option Z;
  ud_bmi : option float;
  family_history : option bool;
  regular_exercise : option bool;
  high_bp : option bool;
  high_glucose : option bool
}.

Definition get {A : Type} (o : option A) (default : A) : A :=
  match o with
  | Some v => v
  | None => default
  end.

(** The points collected by [calculate_risk_score]. *)
Definition points (u : user_data) : Z :=
  let score := 0 in
  let age := get (ud_age u) 0 in
  let score := if 45 <=? age then score + 20
               else if 35 <=? age then score + 10
               else score in
  let bmi := get (ud_bmi u) 0%float in
  let score := if (30 <=? bmi)%float then score + 30
               else if (25 <=? bmi)%float then score + 20
               else if (23 <=? bmi)%float then score + 10
               else score in
  let score := if get (family_history u) false then score + 25 else score in
  let score := if negb (get (regular_exercise u) true) then score + 15 else score in
  let score := if get (high_bp u) false then score + 15 else score in
  let score := if get (high_glucose u) false then score + 20 else score in
  score.

(** [int(min(base + (score - base) * factor, cap))]: the product and the
    sum are floats, the cap is an [int] returned as it is when it is the
    smaller. *)
Definition scaled_percentage (base : Z) (factor : float) (cap : Z) (score : Z)
  : result Z :=
  (d <- float_of_int (score - base) ;;
   b <- float_of_int base ;;
   c <- float_of_int cap ;;
   let v := (b + d * factor)%float in
   if (c <? v)%float then Ok cap else int_of_float v)%py.

(** [calculate_risk_score(user_data)]: the triple
    [(score, risk_level, int(risk_percentage))]. *)
Definition calculate_risk_score (u : user_data) : result (Z * string * Z) :=
  (let score := points u in
   if score <=? 30
   then Ok (score, "Low Risk", Z.min (score * 2) 25)
   else if score <=? 60
   then (p <- scaled_percentage 30 1.5 60 score ;; Ok (score, "Medium Risk", p))
   else (p <- scaled_percentage 60 1.2 90 score ;; Ok (score, "High Risk", p)))%py.

End Leggo.

(** ** Vocabulary of the specification *)

Module Spec.

(** [float(z)] as a total function; it is [float_of_int z] whenever that
    does not overflow. *)
Definition to_float (z : Z) : float :=
  SF2Prim (binary_normalize prec emax z 0 false).

Definition clamp (lo hi x : float) : float := Py.max lo (Py.min hi x).

(** The rule-based score in the words of the specification: start from
    zero, add [(age - 30) * 0.01] when the age is above 30, add
    [(bmi - 25) * 0.02] when the BMI is above 25, clamp to [0, 1]. *)
Definition rule_score (age : Z) (bmi : float) : float :=
  let score := 0%float in
  let score := if 30 <? age
               then (score + to_float (age - 30) * 0.01)%float
               else score in
  let score := if (25 <? bmi)%float
               then (score + (bmi - 25) * 0.02)%float
               else score in
  clamp 0 1 score.

(** Ages a health profile admits. *)
Definition admissible_age (a : Z) : Prop := 1 <= a <= 120.

(** A feature dictionary of a well-formed profile: the age, when there
    is one, is admissible; the BMI is any float or absent. *)
Definition well_formed (features : Form) : Prop :=
  match age features with
  | Some a => admissible_age a
  | None => True
  end.

(** A probability lies in the closed unit interval. *)
Definition in_unit_interval (p : float) : Prop :=
  (0 <=? p)%float = true /\ (p <=? 1)%float = true.

(** The model-backed strategy is unavailable: no model is loaded, or
    the loaded one raises on the feature vector of [features]. *)
Definition model_fails (_model : option predictor) (features : Form) : Prop :=
  match _model with
  | None => True
  | Some m =>
      exists e,
        m [[num_of_int (age features); num_of_float (bmi features)]] = Raise e
  end.

(** A required field is missing: absent, or zero. *)
Definition missing_int (o : option Z) : Prop := o = None \/ o = Some 0.
Definition missing_float (o : option float) : Prop :=
  o = None \/ exists x, o = Some x /\ (x =? 0)%float = true.
Definition incomplete (form : Form) : Prop :=
  missing_int (age form) \/ missing_float (weight form)
  \/ missing_float (height form) \/ missing_float (bmi form).

(** The history list and the form of a session (empty when the key has
    not been created yet, as [ensure_state] would make them). *)
Definition history (s : session_state) : list AssessmentRecord :=
  match assessments s with
  | Some l => l
  | None => []
  end.
Definition form_of (s : session_state) : Form :=
  match current_form s with
  | Some f => f
  | None => empty_form
  end.

(** The session after [c] has run. *)
Definition exec {A : Type} (c : St A) (s : session_state) : session_state :=
  snd (c s).

(** [n] successive recordings of the same result. *)
Fixpoint record_times (n : nat) (now : string) (result : Result)
    (s : session_state) : session_state :=
  match n with
  | O => s
  | S k => exec (save_assessment now result) (record_times k now result s)
  end.

(** The tier a label names, in either naming scheme of the source. *)
Inductive tier : Type := Low | Medium | High.
Definition tier_of_label (l : string) : option tier :=
  if (l =? "Low")%string || (l =? "Low Risk")%string then Some Low
  else if (l =? "Medium")%string || (l =? "Medium Risk")%string then Some Medium
  else if (l =? "High")%string || (l =? "High Risk")%string then Some High
  else None.

End Spec.

Import Spec.

(** ** Sessions used as examples *)

Module Scenario.

Definition fresh : session_state := mkSession None None None.

(** A 50-year-old, 95 kg, 170 cm, submitted with no model loaded. *)
Definition scored : session_state :=
  exec (Risk.page None (Risk.mkWidgets 50 95 170 true) "2024-05-01T10:00:00") fresh.

(** The result stored by that run. *)
Definition scored_result : Result :=
  mkResult (Some 0.358%float) (Some "Medium") (Some "2024-05-01T10:00:00")
    (Some (mkForm (Some 50) (Some 95%float) (Some 170%float) (Some 32.9%float))).

(** The form holds a zero height when the submit block runs. *)
Definition zero_height_form : Form :=
  mkForm (Some 30) (Some 70%float) (Some 0%float) None.
Definition zero_height : session_state :=
  mkSession (Some []) (Some zero_height_form) (Some None).

(** Two loaded models: one answers outside the unit interval, one
    raises on every feature vector. *)
Definition overconfident : predictor := fun _ => Ok 1.7%float.
Definition broken : predictor := fun _ => Raise ValueError.

(** The features of the 50-year-old above. *)
Definition features_50 : Form :=
  mkForm (Some 50) (Some 95%float) (Some 170%float) (Some 32.9%float).

(** A profile given to both scoring schemes. *)
Definition profile_age : Z := 45.
Definition profile_bmi : float := 30%float.
Definition profile_points : Leggo.user_data :=
  Leggo.mkUserData (Some profile_age) (Some profile_bmi)
    (Some false) (Some true) (Some false) (Some false).
Definition profile_linear : Form :=
  mkForm (Some profile_age) None None (Some profile_bmi).

End Scenario.

(** ** [src/app/Home.py] *)

Module Home.

(** The text returned by [welcome_copy()] of [utils.py]. *)
Definition welcome_copy : string :=
  "This tool helps you understand your risk of developing type 2 diabetes. It's not a diagnosis, but it can guide you towards healthier choices.".

(** A call of a function declared with no parameter: positional arguments
    make the call raise [TypeError] before the body runs. *)
Definition call0 {A : Type} (body : A) (args : list string) : result A :=
  match args with
  | [] => Ok body
  | _ :: _ => Raise TypeError
  end.

(** How a run of the Home page ends. *)
Inductive home_outcome : Type :=
| Shown
| SwitchToAssessment.

(** One run of the page script; [start] tells whether the Start
    Assessment button is pressed.  The hero text is obtained by the call
    [welcome_copy('')]. *)
Definition page (start : bool) : St home_outcome :=
  (modify ensure_state ;;
   _ <- lift (call0 welcome_copy [""]) ;;
   if start then ret SwitchToAssessment else ret Shown)%st.

End Home.

(** ** Runs of the application *)

Module Workflow.

(** What can happen to a session: a run of the assessment page, a run of
    the Results page, a run of a page that only calls [ensure_state] (Home,
    Learn, Recommendations, Profile), and a call of [clear_current]. *)
Inductive event : Type :=
| Assess (w : Risk.widgets) (now : string)
| ShowResults (now : string)
| Visit
| ClearCurrent.

Definition step (_model : option predictor) (e : event) (s : session_state)
  : session_state :=
  match e with
  | Assess w now => exec (Risk.page _model w now) s
  | ShowResults now => exec (Results.page now) s
  | Visit => ensure_state s
  | ClearCurrent => exec clear_current s
  end.

Fixpoint run (_model : option predictor) (es : list event) (s : session_state)
  : session_state :=
  match es with
  | [] => s
  | e :: es' => run _model es' (step _model e s)
  end.

(** The runs of the Results page among the events. *)
Fixpoint results_runs (es : list event) : nat :=
  match es with
  | [] => O
  | ShowResults _ :: es' => S (results_runs es')
  | _ :: es' => results_runs es'
  end.

(** A stored result, and a history record, whose probability lies in the
    unit interval and whose label is the one [label_from_prob] gives it. *)
Definition consistent_result (r : Result) : Prop :=
  exists p, prob r = Some p /\ in_unit_interval p
            /\ label r = Some (label_from_prob p).
Definition consistent_record (r : AssessmentRecord) : Prop :=
  exists p, risk_prob r = Some p /\ in_unit_interval p
            /\ risk_label r = Some (label_from_prob p).

(** The current result of a session, when there is one, is consistent. *)
Definition consistent_current (s : session_state) : Prop :=
  match current_result s with
  | Some (Some r) => consistent_result r
  | _ => True
  end.

(** The invariant kept by every event: the records and the current
    result are consistent. *)
Definition session_ok (s : session_state) : Prop :=
  Forall consistent_record (history s) /\ consistent_current s.

(** The rank of a label of [label_from_prob]. *)
Definition rank (l : string) : Z :=
  match tier_of_label l with
  | Some Low => 0
  | Some Medium => 1
  | Some High => 2
  | None => -1
  end.

End Workflow.

(** ** The percentage of [calculate_risk_score] in integer arithmetic *)

Module LeggoSpec.

(** The three formulas with their products taken exactly: twice the
    score up to 25; 30 plus one and a half times the points above 30, up to
    60; 60 plus six fifths of the points above 60, up to 90; fractions
    dropped. *)
Definition exact_percentage (score : Z) : Z :=
  if score <=? 30 then Z.min (2 * score) 25
  else if score <=? 60 then Z.min (30 + 3 * (score - 30) / 2) 60
  else Z.min (60 + 6 * (score - 60) / 5) 90.

Definition level_of (score : Z) : string :=
  if score <=? 30 then "Low Risk"
  else if score <=? 60 then "Medium Risk"
  else "High Risk".

(** The points each answer contributes. *)
Definition age_points (a : Z) : Z :=
  if 45 <=? a then 20 else if 35 <=? a then 10 else 0.
Definition bmi_points (b : float) : Z :=
  if (30 <=? b)%float then 30
  else if (25 <=? b)%float then 20
  else if (23 <=? b)%float then 10
  else 0.
Definition flag_points (flag : bool) (pts : Z) : Z := if flag then pts else 0.

End LeggoSpec.

(** * Properties *)

(** ** The order on binary64 values *)

Section FloatOrder.

Local Open Scope float_scope.

(** A comparison read in the other direction. *)
Lemma SFcompare_antisym (x y : spec_float) :
  SFcompare y x = option_map CompOpp (SFcompare x y).
Proof.
  destruct x as [sx|sx| |sx mx ex], y as [sy|sy| |sy my ey]; simpl;
    try destruct sx; try destruct sy; simpl; try reflexivity.
  - rewrite (Z.compare_antisym ey ex).
    destruct (ey ?= ex)%Z; simpl; try reflexivity.
    now rewrite (Pos.compare_cont_antisym mx my Eq).
  - rewrite (Z.compare_antisym ey ex).
    destruct (ey ?= ex)%Z; simpl; try reflexivity.
    now rewrite (Pos.compare_cont_antisym mx my Eq).
Qed.

Lemma SFcompare_lt_trans (x y z : spec_float) :
  SFcompare x y = Some Lt -> SFcompare y z = Some Lt -> SFcompare x z = Some Lt.
Proof.
  destruct x as [sx|sx| |sx mx ex], y as [sy|sy| |sy my ey],
           z as [sz|sz| |sz mz ez]; simpl;
    try destruct sx; try destruct sy; try destruct sz; simpl;
    try discriminate; try reflexivity; intros Hxy Hyz.
  - (* three negative numbers *)
    fold (Pos.compare mx my) in Hxy. fold (Pos.compare my mz) in Hyz.
    fold (Pos.compare mx mz).
    destruct (Z.compare_spec ex ey), (Z.compare_spec ey ez),
             (Z.compare_spec ex ez); try discriminate; try lia;
      try reflexivity; subst.
    destruct (Pos.compare_spec mx my), (Pos.compare_spec my mz),
             (Pos.compare_spec mx mz); try discriminate; try lia;
      reflexivity.
  - (* three positive numbers *)
    fold (Pos.compare mx my) in Hxy. fold (Pos.compare my mz) in Hyz.
    fold (Pos.compare mx mz).
    destruct (Z.compare_spec ex ey), (Z.compare_spec ey ez),
             (Z.compare_spec ex ez); try discriminate; try lia;
      try reflexivity; subst.
    destruct (Pos.compare_spec mx my), (Pos.compare_spec my mz),
             (Pos.compare_spec mx mz); try discriminate; try lia;
      reflexivity.
Qed.

Lemma ltb_leb (x y : float) : (x <? y) = true -> (x <=? y) = true.
Proof.
  rewrite ltb_spec, leb_spec. unfold SFltb, SFleb.
  now destruct (SFcompare (Prim2SF x) (Prim2SF y)) as [[ | | ]|].
Qed.

Lemma ltb_not_leb (x y : float) : (x <? y) = true -> (y <=? x) = false.
Proof.
  rewrite ltb_spec, leb_spec. unfold SFltb, SFleb.
  rewrite (SFcompare_antisym (Prim2SF x) (Prim2SF y)).
  now destruct (SFcompare (Prim2SF x) (Prim2SF y)) as [[ | | ]|].
Qed.

Lemma leb_not_ltb (x y : float) : (x <=? y) = true -> (y <? x) = false.
Proof.
  intros H. destruct (y <? x) eqn:E; [|reflexivity].
  apply ltb_not_leb in E. congruence.
Qed.

Lemma ltb_trans (x y z : float) :
  (x <? y) = true -> (y <? z) = true -> (x <? z) = true.
Proof.
  rewrite !ltb_spec. unfold SFltb.
  pose proof (SFcompare_lt_trans (Prim2SF x) (Prim2SF y) (Prim2SF z)) as T.
  destruct (SFcompare (Prim2SF x) (Prim2SF y)) as [[ | | ]|]; try discriminate.
  destruct (SFcompare (Prim2SF y) (Prim2SF z)) as [[ | | ]|]; try discriminate.
  intros _ _. now rewrite T.
Qed.

Lemma ltb_not_ltb (x y : float) : (x <? y) = true -> (y <? x) = false.
Proof.
  intros H. destruct (y <? x) eqn:E; [|reflexivity].
  apply ltb_leb in E. apply ltb_not_leb in H. congruence.
Qed.

(** At most and not below: equal as numbers (the two zeros are). *)
Lemma leb_not_ltb_eqb (x y : float) :
  (x <=? y) = true -> (x <? y) = false -> (x =? y) = true /\ (y =? x) = true.
Proof.
  rewrite leb_spec, ltb_spec, !eqb_spec. unfold SFleb, SFltb, SFeqb.
  rewrite (SFcompare_antisym (Prim2SF x) (Prim2SF y)).
  destruct (SFcompare (Prim2SF x) (Prim2SF y)) as [[ | | ]|]; simpl;
    intros; try discriminate; split; reflexivity.
Qed.

Lemma SFcompare_refl (y : spec_float) :
  y <> S754_nan -> SFcompare y y = Some Eq.
Proof.
  destruct y as [s|s| |s m e]; simpl; intros H.
  - reflexivity.
  - now destruct s.
  - now elim H.
  - fold (Pos.compare m m). rewrite Z.compare_refl, Pos.compare_refl.
    now destruct s.
Qed.

(** A float that compares with something is equal to itself: it is not
    [nan]. *)
Lemma leb_eqb_refl (x y : float) : (x <=? y) = true -> (y =? y) = true.
Proof.
  rewrite leb_spec, eqb_spec. unfold SFleb, SFeqb. intros H.
  rewrite SFcompare_refl; [reflexivity|].
  intros E. rewrite E in H.
  now destruct (Prim2SF x).
Qed.

(** Below a bound, hence not above a larger one. *)
Lemma leb_above (a b p : float) :
  (a <? b) = true -> (b <=? p) = true -> (p <? a) = false.
Proof.
  intros Hab Hbp. destruct (p <? a) eqn:E; [|reflexivity].
  pose proof (ltb_trans _ _ _ E Hab) as L.
  apply ltb_not_leb in L. congruence.
Qed.

End FloatOrder.

(** ** Floating-point facts used by the predictor *)

Section FloatArith.

Local Open Scope float_scope.

Lemma Prim2SF_zero : Prim2SF 0 = S754_zero false.
Proof. reflexivity. Qed.

(** A float equal to zero is one of the two zeros. *)
Lemma eqb_zero_inv (x : float) :
  (x =? 0) = true -> exists s, Prim2SF x = S754_zero s.
Proof.
  rewrite eqb_spec, Prim2SF_zero. unfold SFeqb.
  destruct (Prim2SF x) as [s|s| |s m e]; simpl; try discriminate.
  - intros _. now exists s.
  - now destruct s.
  - now destruct s.
Qed.

(** Neither zero is above 25. *)
Lemma zero_not_above_25 (x : float) : (x =? 0) = true -> (25 <? x) = false.
Proof.
  intros H. destruct (eqb_zero_inv x H) as [s E].
  rewrite ltb_spec, E. reflexivity.
Qed.

(** A sum with [0.0] on the left is never the negative zero. *)
Lemma add_zero_l_sign (a : float) : Prim2SF (0 + a) <> S754_zero true.
Proof.
  rewrite add_spec, Prim2SF_zero. unfold SF64add.
  destruct (Prim2SF a) as [s|s| |s m e]; simpl; try discriminate.
  now destruct s.
Qed.

(** Adding [0.0] changes nothing but the negative zero. *)
Lemma add_zero_r (x : float) : Prim2SF x <> S754_zero true -> x + 0 = x.
Proof.
  intros H. apply Prim2SF_inj. rewrite add_spec, Prim2SF_zero.
  unfold SF64add.
  destruct (Prim2SF x) as [s|s| |s m e]; simpl; try reflexivity.
  destruct s; [now elim H | reflexivity].
Qed.

Lemma add_zero_l_zero_r (a : float) : 0 + a + 0 = 0 + a.
Proof. apply add_zero_r, add_zero_l_sign. Qed.

(** [clamp 0 1] is the clamp to the unit interval: numbers below 0 go to
    0, numbers above 1 go to 1, numbers in between are kept (up to the
    sign of zero). *)
Lemma clamp_spec (x : float) :
  ((x <? 0) = true -> clamp 0 1 x = 0)
  /\ ((1 <? x) = true -> clamp 0 1 x = 1)
  /\ ((0 <=? x) = true -> (x <=? 1) = true -> (clamp 0 1 x =? x) = true).
Proof.
  unfold clamp, Py.max, Py.min. repeat split.
  - intros H. rewrite (ltb_trans x 0 1 H eq_refl).
    now rewrite (ltb_not_ltb _ _ H).
  - intros H. now rewrite (ltb_not_ltb _ _ H).
  - intros H0 H1. destruct (x <? 1) eqn:E1.
    + destruct (0 <? x) eqn:E0.
      * exact (leb_eqb_refl 0 x H0).
      * exact (proj1 (leb_not_ltb_eqb 0 x H0 E0)).
    + exact (proj2 (leb_not_ltb_eqb x 1 H1 E1)).
Qed.

(** The clamp of any float, [nan] included, is a probability. *)
Lemma clamp_in_unit_interval (x : float) : in_unit_interval (clamp 0 1 x).
Proof.
  unfold in_unit_interval, clamp, Py.max, Py.min.
  destruct (x <? 1) eqn:H1.
  - destruct (0 <? x) eqn:H0.
    + split; now apply ltb_leb.
    + split; reflexivity.
  - split; reflexivity.
Qed.

End FloatArith.

(** Small integers convert to floats without overflow. *)
Lemma float_of_int_small (z : Z) :
  0 <= z <= 200 -> float_of_int z = Ok (to_float z).
Proof.
  intros Hz.
  assert (A : forallb (fun n => negb (is_infinity (to_float (Z.of_nat n))))
                      (seq 0 201) = true) by (vm_compute; reflexivity).
  rewrite forallb_forall in A.
  specialize (A (Z.to_nat z)).
  rewrite Z2Nat.id in A by lia.
  unfold float_of_int. fold (to_float z).
  destruct (is_infinity (to_float z)).
  - exfalso. assert (negb true = true) as C; [|discriminate C].
    apply A. apply in_seq. lia.
  - reflexivity.
Qed.

(** ** The classifier *)

(** C2: [label_from_prob] is total and cuts the floats at the two fixed
    thresholds: below 0.34 the label is Low, from 0.34 up to but excluding
    0.67 it is Medium, from 0.67 on it is High; the thresholds themselves
    belong to the higher tier, every float gets one of the three labels,
    and only one. *)
Theorem label_from_prob_thresholds (p : float) :
  ((p <? 0.34)%float = true -> label_from_prob p = "Low")
  /\ ((0.34 <=? p)%float = true -> (p <? 0.67)%float = true ->
      label_from_prob p = "Medium")
  /\ ((0.67 <=? p)%float = true -> label_from_prob p = "High")
  /\ (label_from_prob p = "Low" \/ label_from_prob p = "Medium"
      \/ label_from_prob p = "High")
  /\ (forall t1 t2, label_from_prob p = t1 -> label_from_prob p = t2 -> t1 = t2)
  /\ label_from_prob 0.34 = "Medium"
  /\ label_from_prob 0.67 = "High"
  /\ label_from_prob 0 = "Low"
  /\ label_from_prob 0.339 = "Low"
  /\ label_from_prob 0.669 = "Medium"
  /\ label_from_prob 1 = "High".
Proof.
  unfold label_from_prob. repeat split; try reflexivity.
  - intros H. now rewrite H.
  - intros Hlo Hhi. now rewrite (leb_not_ltb _ _ Hlo), Hhi.
  - intros H.
    rewrite (leb_above 0.34 0.67 p eq_refl H).
    now rewrite (leb_not_ltb _ _ H).
  - destruct (p <? 0.34)%float; [now left|].
    destruct (p <? 0.67)%float; [now right; left | now right; right].
  - congruence.
Qed.

(** ** The BMI calculator *)

(** X9: [calc_bmi] returns [None], and raises nothing, when the weight
    or the height is missing or zero and when the height is not above
    zero. *)
Lemma calc_bmi_unavailable (w h : option float) :
  missing_float w \/ missing_float h
  \/ (exists x, h = Some x /\ (x <=? 0)%float = true) ->
  calc_bmi w h = Ok None.
Proof.
  intros H. unfold calc_bmi, truthy_float.
  destruct w as [w|]; [|reflexivity]. destruct h as [h|]; [|reflexivity].
  destruct H as [[C|[x [C E]]] | [[C|[x [C E]]] | [x [C E]]]];
    try discriminate C; injection C as <-; rewrite E; simpl;
    rewrite ?orb_true_r; reflexivity.
Qed.

(** With both inputs present, non-zero and the height positive, the
    result is the quotient rounded to one decimal, unless the squared
    height underflows to zero. *)
Lemma calc_bmi_value (w h : float) :
  (w =? 0)%float = false -> (h =? 0)%float = false -> (h <=? 0)%float = false ->
  calc_bmi (Some w) (Some h)
  = if (h / 100 * (h / 100) =? 0)%float then Raise ZeroDivisionError
    else Ok (Some (round1 (w / (h / 100 * (h / 100)))%float)).
Proof.
  intros Hw Hh Hp. unfold calc_bmi, truthy_float. now rewrite Hw, Hh, Hp.
Qed.

(** C3: a negative weight with a positive height is not rejected: the
    calculator returns a negative BMI where the contract asks for [None]. *)
Theorem calc_bmi_negative_weight :
  calc_bmi (Some (-70)%float) (Some 170%float) = Ok (Some (-24.2)%float).
Proof. vm_compute. reflexivity. Qed.

(** A positive height so small that its square underflows makes the
    division raise. *)
Lemma calc_bmi_tiny_height :
  calc_bmi (Some 70%float) (Some 1e-200%float) = Raise ZeroDivisionError.
Proof. vm_compute. reflexivity. Qed.

(** ** The predictor *)

Lemma age_or_0_some (w h b : option float) (a : Z) :
  age_or_0 (mkForm (Some a) w h b) = a.
Proof.
  unfold age_or_0, truthy_int; simpl.
  destruct (Z.eqb_spec a 0); simpl; congruence.
Qed.

(** The fallback of the code computes the score the specification
    describes. *)
Lemma fallback_score_spec (a : Z) (w h : option float) (b : float) :
  0 <= a - 30 <= 200 \/ a <= 30 ->
  fallback_score (mkForm (Some a) w h (Some b)) = Ok (rule_score a b).
Proof.
  intros Ha. unfold fallback_score, rule_score. rewrite age_or_0_some.
  unfold bmi_or_0, truthy_float; simpl bmi.
  assert (Hb : (if negb (b =? 0)%float then b else 0%float) = b
               \/ ((b =? 0)%float = true /\ (25 <? b)%float = false)).
  { destruct (b =? 0)%float eqn:E; simpl; [right|now left].
    split; [reflexivity | now apply zero_not_above_25]. }
  destruct (30 <? a) eqn:Hage.
  - rewrite float_of_int_small by (apply Z.ltb_lt in Hage; lia).
    simpl Py.bind. fold (clamp 0 1).
    destruct Hb as [-> | [E Hb]].
    + destruct (25 <? b)%float; [reflexivity|].
      now rewrite add_zero_l_zero_r.
    + rewrite E, Hb. simpl negb. cbv iota.
      replace (25 <? 0)%float with false by reflexivity.
      now rewrite add_zero_l_zero_r.
  - simpl Py.bind. fold (clamp 0 1).
    replace (0 + 0)%float with 0%float by reflexivity.
    destruct Hb as [-> | [E Hb]].
    + destruct (25 <? b)%float; reflexivity.
    + rewrite E, Hb. simpl negb. cbv iota.
      replace (25 <? 0)%float with false by reflexivity.
      reflexivity.
Qed.

(** The fallback never raises on a well-formed profile and its score is
    a probability. *)
Lemma fallback_score_ok (features : Form) :
  well_formed features ->
  exists p, fallback_score features = Ok p /\ in_unit_interval p.
Proof.
  intros H. unfold fallback_score.
  assert (Hage : 0 <= age_or_0 features <= 120).
  { unfold well_formed, admissible_age in H. unfold age_or_0.
    destruct (age features) as [a|]; [|lia].
    destruct (truthy_int a); lia. }
  destruct (30 <? age_or_0 features) eqn:E.
  - rewrite float_of_int_small by (apply Z.ltb_lt in E; lia).
    simpl Py.bind. eexists; split; [reflexivity|].
    apply clamp_in_unit_interval.
  - simpl Py.bind. eexists; split; [reflexivity|].
    apply clamp_in_unit_interval.
Qed.

(** Outside the admissible ages the conversion of the age to a float can
    overflow, and the fallback then raises. *)
Remark fallback_score_overflow :
  fallback_score (mkForm (Some (2 ^ 1024 + 30)) None None None)
  = Raise OverflowError.
Proof. vm_compute. reflexivity. Qed.

(** C4: with no model configured the predictor returns the rule-based
    score of the specification; for age 50 and BMI 32.9 (95 kg, 170 cm)
    that score is 0.358 and the tier is Medium. *)
Theorem rule_based_when_no_model (a : Z) (w h : option float) (b : float)
    (Ha : admissible_age a) :
  model_predict_prob None (mkForm (Some a) w h (Some b)) = Ok (rule_score a b)
  /\ calc_bmi (Some 95%float) (Some 170%float) = Ok (Some 32.9%float)
  /\ rule_score 50 32.9 = 0.358%float
  /\ model_predict_prob None Scenario.features_50 = Ok 0.358%float
  /\ label_from_prob 0.358 = "Medium".
Proof.
  split; [|repeat split; vm_compute; reflexivity].
  unfold model_predict_prob. apply fallback_score_spec.
  unfold admissible_age in Ha. lia.
Qed.

Lemma rule_based_when_no_model_witness :
  admissible_age 50
  /\ model_predict_prob None Scenario.features_50 = Ok (rule_score 50 32.9).
Proof.
  assert (Ha : admissible_age 50) by (unfold admissible_age; lia).
  split; [exact Ha|].
  exact (proj1 (rule_based_when_no_model 50 (Some 95%float) (Some 170%float)
                  32.9%float Ha)).
Defined.

(** C5: on a well-formed profile the predictor returns a probability in
    the closed unit interval, whether a model is loaded or not and whatever
    the model answers. *)
Theorem predict_in_unit_interval (_model : option predictor) (features : Form)
    (Hwf : well_formed features) :
  exists p, model_predict_prob _model features = Ok p /\ in_unit_interval p.
Proof.
  unfold model_predict_prob.
  destruct _model as [m|]; [|now apply fallback_score_ok].
  destruct (m _) as [prob|e]; [|now apply fallback_score_ok].
  eexists; split; [reflexivity|]. apply clamp_in_unit_interval.
Qed.

Lemma predict_in_unit_interval_witness :
  well_formed Scenario.features_50
  /\ exists p, model_predict_prob (Some Scenario.overconfident) Scenario.features_50
               = Ok p /\ in_unit_interval p.
Proof.
  assert (Hwf : well_formed Scenario.features_50).
  { unfold well_formed, admissible_age. simpl. lia. }
  split; [exact Hwf|].
  exact (predict_in_unit_interval (Some Scenario.overconfident)
           Scenario.features_50 Hwf).
Defined.

(** C6: when the model-backed strategy fails (no model, or the model
    raises on the feature vector) the predictor returns the score of the
    rule-based fallback, and returns it normally. *)
Theorem predict_falls_back (_model : option predictor) (features : Form)
    (Hwf : well_formed features) (Hfail : model_fails _model features) :
  model_predict_prob _model features = model_predict_prob None features
  /\ exists p, model_predict_prob _model features = Ok p
               /\ fallback_score features = Ok p.
Proof.
  assert (E : model_predict_prob _model features = fallback_score features).
  { unfold model_predict_prob. destruct _model as [m|]; [|reflexivity].
    destruct Hfail as [e He]. now rewrite He. }
  split; [exact E|].
  destruct (fallback_score_ok features Hwf) as [p [Hp _]].
  exists p. now rewrite E.
Qed.

Lemma predict_falls_back_witness :
  well_formed Scenario.features_50
  /\ model_fails (Some Scenario.broken) Scenario.features_50
  /\ model_predict_prob (Some Scenario.broken) Scenario.features_50
     = model_predict_prob None Scenario.features_50.
Proof.
  assert (Hwf : well_formed Scenario.features_50).
  { unfold well_formed, admissible_age. simpl. lia. }
  assert (Hfail : model_fails (Some Scenario.broken) Scenario.features_50).
  { exists ValueError. reflexivity. }
  split; [exact Hwf|]. split; [exact Hfail|].
  exact (proj1 (predict_falls_back (Some Scenario.broken) Scenario.features_50
                  Hwf Hfail)).
Defined.

(** ** Session state and history *)

(** Opens the plumbing of session code: sequencing, reads and writes. *)
Ltac run_st := unfold State.bind, modify, get_item, ret, lift, raise.

Lemma ensure_state_spec (s : session_state) :
  ensure_state s
  = mkSession (Some (history s)) (Some (form_of s))
      (Some (match current_result s with Some r => r | None => None end)).
Proof. destruct s as [[a|] [f|] [r|]]; reflexivity. Qed.

(** One call of [save_assessment]: it cannot raise, and it appends the
    projection of the result and of the current form. *)
Lemma save_assessment_run (now : string) (r : Result) (s : session_state) :
  save_assessment now r s
  = (Ok tt,
     set_assessments (history s ++ [record_of now r (form_of s)])%list (ensure_state s)).
Proof.
  unfold save_assessment. run_st.
  rewrite ensure_state_spec. reflexivity.
Qed.

Lemma save_assessment_history (now : string) (r : Result) (s : session_state) :
  history (exec (save_assessment now r) s)
  = (history s ++ [record_of now r (form_of s)])%list.
Proof. unfold exec. rewrite save_assessment_run. reflexivity. Qed.

Lemma save_assessment_form (now : string) (r : Result) (s : session_state) :
  form_of (exec (save_assessment now r) s) = form_of s.
Proof.
  unfold exec. rewrite save_assessment_run, ensure_state_spec. reflexivity.
Qed.

Lemma record_times_form (n : nat) (now : string) (r : Result) (s : session_state) :
  form_of (record_times n now r s) = form_of s.
Proof.
  induction n as [|n IH]; simpl; [reflexivity|].
  now rewrite save_assessment_form.
Qed.

(** C1, as the code has it: every recording call appends exactly one
    record, the first one and every later one alike; recording the same
    result [n] times leaves [n] copies of its record at the end of the
    history. *)
Theorem recording_appends_every_time (n : nat) (now : string) (r : Result)
    (s : session_state) :
  history (record_times n now r s)
  = (history s ++ repeat (record_of now r (form_of s)) n)%list
  /\ List.length (history (exec (save_assessment now r) s)) = S (List.length (history s)).
Proof.
  split.
  - induction n as [|n IH]; simpl.
    + now rewrite app_nil_r.
    + rewrite save_assessment_history, IH, record_times_form.
      rewrite <- app_assoc. f_equal. symmetry. apply repeat_cons.
  - rewrite save_assessment_history, length_app. simpl. lia.
Qed.

(** C1 as stated fails: the Results page rendered twice on the same
    scored session leaves two records, the second render growing the
    history. *)
Lemma rerender_duplicates_record :
  let s1 := exec (Results.page "2024-05-01T10:00:01") Scenario.scored in
  let s2 := exec (Results.page "2024-05-01T10:00:02") s1 in
  current_result s1 = Some (Some Scenario.scored_result)
  /\ current_result s2 = Some (Some Scenario.scored_result)
  /\ List.length (history s1) = 1%nat
  /\ List.length (history s2) = 2%nat.
Proof. vm_compute. repeat split; reflexivity. Qed.

(** C8, as the code has it: the record appended by [save_assessment]
    takes its time stamp, probability and tier from the result, and its
    age, weight, height and BMI from the form of the session at recording
    time; these are the snapshot's whenever the form still is the
    snapshot. *)
Theorem record_projects_result_and_form (now : string) (r : Result)
    (s : session_state) :
  exists rec,
    history (exec (save_assessment now r) s) = (history s ++ [rec])%list
    /\ rec_created_at rec = match created_at r with Some t => t | None => now end
    /\ risk_prob rec = prob r
    /\ risk_label rec = label r
    /\ rec_age rec = age (form_of s)
    /\ rec_weight rec = weight (form_of s)
    /\ rec_height rec = height (form_of s)
    /\ rec_bmi rec = bmi (form_of s)
    /\ (forall snapshot, inputs r = Some snapshot -> form_of s = snapshot ->
        rec_age rec = age snapshot /\ rec_weight rec = weight snapshot
        /\ rec_height rec = height snapshot /\ rec_bmi rec = bmi snapshot).
Proof.
  exists (record_of now r (form_of s)).
  rewrite save_assessment_history. repeat split; try reflexivity;
    intros; subst; reflexivity.
Qed.

(** C8 as stated fails: once the in-progress form has been cleared, the
    scored result is recorded with the inputs of the cleared form, not
    with those of the snapshot it carries. *)
Lemma record_follows_form_not_snapshot :
  let s1 := exec clear_current Scenario.scored in
  let s2 := exec (save_assessment "2024-05-01T10:00:01" Scenario.scored_result) s1 in
  current_result Scenario.scored = Some (Some Scenario.scored_result)
  /\ option_map age (inputs Scenario.scored_result) = Some (Some 50)
  /\ map risk_prob (history s2) = [Some 0.358%float]
  /\ map rec_age (history s2) = [None]
  /\ map rec_bmi (history s2) = [None].
Proof. vm_compute. repeat split; reflexivity. Qed.

(** C10: [clear_current] resets the form and the result and leaves the
    history as it was. *)
Theorem clear_current_keeps_history (s : session_state) :
  fst (clear_current s) = Ok tt
  /\ assessments (exec clear_current s) = assessments s
  /\ history (exec clear_current s) = history s
  /\ current_form (exec clear_current s) = Some (mkForm None None None None)
  /\ current_result (exec clear_current s) = Some None.
Proof. repeat split; reflexivity. Qed.

(** ** The assessment page *)

Lemma incomplete_not_complete (form : Form) :
  incomplete form -> Risk.complete form = false.
Proof.
  unfold incomplete, missing_int, missing_float, Risk.complete.
  destruct form as [a w h b]; simpl.
  intros [[->| ->] | [[->|[x [-> E]]] | [[->|[x [-> E]]] | [->|[x [-> E]]]]]];
    simpl; unfold truthy_float; rewrite ?E; simpl;
    rewrite ?andb_false_r; reflexivity.
Qed.

Lemma complete_not_incomplete (form : Form) :
  Risk.complete form = false -> incomplete form.
Proof.
  unfold incomplete, missing_int, missing_float, Risk.complete.
  destruct form as [[a|] [w|] [h|] [b|]]; simpl; unfold truthy_int, truthy_float;
    intros H; auto 6.
  destruct (Z.eqb_spec a 0) as [->|_]; [now left; right|]. right.
  destruct (w =? 0)%float eqn:Ew; [left; right; eauto|]. right.
  destruct (h =? 0)%float eqn:Eh; [left; right; eauto|]. right.
  destruct (b =? 0)%float eqn:Eb; [right; eauto|]. discriminate H.
Qed.

(** The submit block on a form that fails the completeness test. *)
Lemma on_submit_rejects (_model : option predictor) (now : string)
    (s : session_state) (form : Form) :
  current_form s = Some form -> Risk.complete form = false ->
  Risk.on_submit _model now s
  = (Ok (StopError "Please complete all fields before continuing."), s).
Proof.
  intros Hform Hc. unfold Risk.on_submit. run_st.
  now rewrite Hform, Hc.
Qed.

(** C7: a submission whose age, weight, height or BMI is missing is
    answered by the validation error and nothing else happens: the session
    is left exactly as it was, so no result is stored (the run stays a
    draft) and the history gets no record. *)
Theorem incomplete_submission_is_rejected (_model : option predictor)
    (now : string) (s : session_state) (form : Form)
    (Hform : current_form s = Some form) (Hmiss : incomplete form) :
  Risk.on_submit _model now s
  = (Ok (StopError "Please complete all fields before continuing."), s)
  /\ current_result (exec (Risk.on_submit _model now) s) = current_result s
  /\ history (exec (Risk.on_submit _model now) s) = history s.
Proof.
  pose proof (on_submit_rejects _model now s form Hform
                (incomplete_not_complete form Hmiss)) as E.
  unfold exec. rewrite E. repeat split; reflexivity.
Qed.

Lemma incomplete_submission_is_rejected_witness :
  current_form Scenario.zero_height = Some Scenario.zero_height_form
  /\ incomplete Scenario.zero_height_form
  /\ Risk.on_submit None "2024-05-01T10:00:00" Scenario.zero_height
     = (Ok (StopError "Please complete all fields before continuing."),
        Scenario.zero_height).
Proof.
  assert (Hmiss : incomplete Scenario.zero_height_form).
  { right; right; left; right. exists 0%float. split; reflexivity. }
  split; [reflexivity|]. split; [exact Hmiss|].
  exact (proj1 (incomplete_submission_is_rejected None "2024-05-01T10:00:00"
                  Scenario.zero_height Scenario.zero_height_form eq_refl Hmiss)).
Defined.

(** Collecting the inputs writes the form only. *)
Lemma collect_frame (w : Risk.widgets) (s : session_state) :
  assessments (exec (Risk.collect w) s) = assessments s
  /\ current_result (exec (Risk.collect w) s) = current_result s.
Proof.
  unfold exec, Risk.collect, Risk.form_assign. run_st.
  destruct (current_form s) as [f|] eqn:Ef; [|split; reflexivity].
  cbn -[calc_bmi truthy_float].
  destruct (truthy_float (Risk.w_weight w) && truthy_float (Risk.w_height w));
    [|split; reflexivity].
  destruct (calc_bmi (Some (Risk.w_weight w)) (Some (Risk.w_height w)));
    split; reflexivity.
Qed.

(** A whole run of the page, submitted: when the inputs are collected
    without an exception and the form they leave is incomplete, the run
    ends on the validation error with the result and the history as
    [ensure_state] left them. *)
Lemma page_rejects_incomplete (_model : option predictor) (w : Risk.widgets)
    (now : string) (s s1 : session_state) (form : Form) :
  Risk.submitted w = true ->
  Risk.collect w (ensure_state s) = (Ok tt, s1) ->
  current_form s1 = Some form -> incomplete form ->
  Risk.page _model w now s
  = (Ok (StopError "Please complete all fields before continuing."), s1)
  /\ history s1 = history s
  /\ current_result s1 = current_result (ensure_state s).
Proof.
  intros Hsub Hcol Hform Hmiss.
  destruct (collect_frame w (ensure_state s)) as [Ha Hr].
  unfold exec in Ha, Hr. rewrite Hcol in Ha, Hr. simpl in Ha, Hr.
  split; [|split].
  - unfold Risk.page. run_st. rewrite Hcol, Hsub.
    apply (on_submit_rejects _model now s1 form Hform).
    now apply incomplete_not_complete.
  - unfold history. rewrite Ha, ensure_state_spec. reflexivity.
  - exact Hr.
Qed.

(** The whole page on a zero height: the BMI is not derived, the
    validation error is shown, the result and the history stay as
    [ensure_state] left them. *)
Lemma zero_height_page (_model : option predictor) (w : Risk.widgets)
    (now : string) (s : session_state) :
  Risk.submitted w = true -> (Risk.w_height w =? 0)%float = true ->
  exists s',
    Risk.page _model w now s
    = (Ok (StopError "Please complete all fields before continuing."), s')
    /\ history s' = history s
    /\ current_result s' = current_result (ensure_state s)
    /\ height (form_of s') = Some (Risk.w_height w).
Proof.
  intros Hsub Hz.
  unfold Risk.page, Risk.collect, Risk.form_assign, Risk.on_submit. run_st.
  rewrite ensure_state_spec. simpl.
  unfold truthy_float at 2. rewrite Hz. simpl. rewrite andb_false_r.
  rewrite Hsub. simpl.
  unfold Risk.complete. simpl. unfold truthy_float at 2. rewrite Hz. simpl.
  rewrite andb_false_r. simpl.
  eexists. split; [reflexivity|]. repeat split; reflexivity.
Qed.

(** No run of the assessment page touches the history, whatever the
    widgets return and however the run ends. *)
Lemma risk_page_keeps_history (_model : option predictor) (w : Risk.widgets)
    (now : string) (s : session_state) :
  history (exec (Risk.page _model w now) s) = history s.
Proof.
  unfold exec, Risk.page, Risk.collect, Risk.form_assign, Risk.on_submit.
  run_st.
  rewrite ensure_state_spec.
  cbn -[calc_bmi Risk.complete model_predict_prob truthy_float].
  destruct (truthy_float (Risk.w_weight w) && truthy_float (Risk.w_height w));
    [destruct (calc_bmi (Some (Risk.w_weight w)) (Some (Risk.w_height w)))
       as [b|e]; [|reflexivity] | ];
    cbn -[calc_bmi Risk.complete model_predict_prob truthy_float];
    (destruct (Risk.submitted w); [|reflexivity]);
    cbn -[calc_bmi Risk.complete model_predict_prob truthy_float];
    (match goal with
     | |- context [Risk.complete ?f] => destruct (Risk.complete f)
     end; [|reflexivity]);
    cbn -[calc_bmi Risk.complete model_predict_prob truthy_float];
    (match goal with
     | |- context [model_predict_prob ?m ?f] => destruct (model_predict_prob m f)
     end; reflexivity).
Qed.

(** ** The Results page *)

(** With no result in the session the page stops on its warning and
    records nothing. *)
Lemma results_page_without_result (now : string) (s : session_state) :
  current_result s = None \/ current_result s = Some None ->
  fst (Results.page now s)
  = Ok (StopWarning "No recent assessment found. Please complete the assessment first.")
  /\ history (exec (Results.page now) s) = history s.
Proof.
  unfold exec, Results.page. run_st.
  rewrite ensure_state_spec.
  intros [-> | ->]; split; reflexivity.
Qed.

(** On a scored session whose probability is a finite number, a run of
    the page is one call of [save_assessment] on the stored result. *)
Lemma results_page_records (now : string) (s : session_state) (r : Result)
    (p : float) (l : string) (k : Z) :
  current_result s = Some (Some r) -> prob r = Some p -> label r = Some l ->
  round0 (p * 100)%float = Ok k ->
  Results.page now s = (Ok Rendered, exec (save_assessment now r) s).
Proof.
  intros Hr Hp Hl Hk.
  unfold exec. rewrite save_assessment_run.
  unfold Results.page, Results.lookup, Results.falsy. run_st.
  rewrite ensure_state_spec, Hr.
  cbn -[round0 save_assessment]. rewrite Hp, Hl.
  cbn -[round0 save_assessment]. rewrite Hk, save_assessment_run.
  reflexivity.
Qed.

(** ** The two scoring schemes *)

Lemma points_bounds (u : Leggo.user_data) : 0 <= Leggo.points u <= 125.
Proof.
  unfold Leggo.points.
  repeat match goal with
         | |- context [if ?c then _ else _] => destruct c
         end; lia.
Qed.

(** The percentage of the two upper tiers is computed without an
    exception for every score the points can reach. *)
Lemma scaled_percentage_ok (score : Z) :
  30 < score <= 125 ->
  (exists p, Leggo.scaled_percentage 30 1.5 60 score = Ok p)
  /\ (exists p, Leggo.scaled_percentage 60 1.2 90 score = Ok p).
Proof.
  intros H.
  assert (A : forallb
                (fun n =>
                   match Leggo.scaled_percentage 30 1.5 60 (Z.of_nat n),
                         Leggo.scaled_percentage 60 1.2 90 (Z.of_nat n) with
                   | Ok _, Ok _ => true
                   | _, _ => false
                   end) (seq 31 95) = true) by (vm_compute; reflexivity).
  rewrite forallb_forall in A. specialize (A (Z.to_nat score)).
  rewrite Z2Nat.id in A by lia.
  assert (I : In (Z.to_nat score) (seq 31 95)) by (apply in_seq; lia).
  specialize (A I).
  destruct (Leggo.scaled_percentage 30 1.5 60 score); [|discriminate].
  destruct (Leggo.scaled_percentage 60 1.2 90 score); [|discriminate].
  split; eexists; reflexivity.
Qed.

(** [calculate_risk_score] always returns, with its tiers cut at 30 and
    at 60 points. *)
Lemma calculate_risk_score_tiers (u : Leggo.user_data) :
  exists pct,
    Leggo.calculate_risk_score u
    = Ok (Leggo.points u,
          if Leggo.points u <=? 30 then "Low Risk"
          else if Leggo.points u <=? 60 then "Medium Risk"
          else "High Risk",
          pct).
Proof.
  unfold Leggo.calculate_risk_score.
  pose proof (points_bounds u) as B.
  destruct (Leggo.points u <=? 30) eqn:E30; [eexists; reflexivity|].
  apply Z.leb_gt in E30.
  destruct (scaled_percentage_ok (Leggo.points u)) as [[p1 H1] [p2 H2]]; [lia|].
  destruct (Leggo.points u <=? 60).
  - rewrite H1. eexists; reflexivity.
  - rewrite H2. eexists; reflexivity.
Qed.

(** C9: the point-score classifier and the linear formula with the
    threshold classifier disagree on a profile: age 45 with BMI 30 and no
    other risk factor collects 50 points, a medium risk, while its linear
    score 0.25 is labelled low. *)
Theorem scoring_schemes_diverge :
  exists (u : Leggo.user_data) (features : Form) (level : string) (p : float),
    Leggo.ud_age u = age features
    /\ Leggo.ud_bmi u = bmi features
    /\ Leggo.calculate_risk_score u = Ok (50, level, 60)
    /\ model_predict_prob None features = Ok p
    /\ level = "Medium Risk"
    /\ label_from_prob p = "Low"
    /\ tier_of_label level = Some Medium
    /\ tier_of_label (label_from_prob p) = Some Low.
Proof.
  exists Scenario.profile_points, Scenario.profile_linear, "Medium Risk", 0.25%float.
  vm_compute. repeat split; reflexivity.
Qed.

(** * Further properties of the code *)

(** ** More on the order of binary64 values *)

(** Case analysis on the comparisons of exponents and mantissas. *)
Ltac sf_cases :=
  repeat match goal with
         | H : context [Pos.compare_cont Eq ?a ?b] |- _ =>
             fold (Pos.compare a b) in H
         | |- context [Pos.compare_cont Eq ?a ?b] => fold (Pos.compare a b)
         end;
  repeat match goal with
         | H : context [(?a ?= ?b)%Z] |- _ => destruct (Z.compare_spec a b)
         | |- context [(?a ?= ?b)%Z] => destruct (Z.compare_spec a b)
         end; simpl in *; try discriminate; try lia; try reflexivity; subst;
  repeat match goal with
         | H : context [(?a ?= ?b)%positive] |- _ =>
             destruct (Pos.compare_spec a b)
         | |- context [(?a ?= ?b)%positive] => destruct (Pos.compare_spec a b)
         end; simpl in *; try discriminate; try lia; try reflexivity.

Section FloatOrderTrans.

Local Open Scope float_scope.

Lemma SFleb_ltb_trans (x y z : spec_float) :
  SFleb x y = true -> SFltb y z = true -> SFltb x z = true.
Proof.
  unfold SFleb, SFltb.
  destruct x as [sx|sx| |sx mx ex], y as [sy|sy| |sy my ey],
           z as [sz|sz| |sz mz ez]; simpl;
    try destruct sx; try destruct sy; try destruct sz; simpl;
    try discriminate; try reflexivity; intros Hxy Hyz; sf_cases.
Qed.

Lemma SFleb_trans (x y z : spec_float) :
  SFleb x y = true -> SFleb y z = true -> SFleb x z = true.
Proof.
  unfold SFleb.
  destruct x as [sx|sx| |sx mx ex], y as [sy|sy| |sy my ey],
           z as [sz|sz| |sz mz ez]; simpl;
    try destruct sx; try destruct sy; try destruct sz; simpl;
    try discriminate; try reflexivity; intros Hxy Hyz; sf_cases.
Qed.

Lemma leb_ltb_trans (x y z : float) :
  (x <=? y) = true -> (y <? z) = true -> (x <? z) = true.
Proof. rewrite leb_spec, !ltb_spec. apply SFleb_ltb_trans. Qed.

Lemma leb_trans (x y z : float) :
  (x <=? y) = true -> (y <=? z) = true -> (x <=? z) = true.
Proof. rewrite !leb_spec. apply SFleb_trans. Qed.

(** A float that is not equal to itself is [nan]: it is below nothing. *)
Lemma nan_not_below (x y : float) : (x =? x) = false -> (x <? y) = false.
Proof.
  rewrite eqb_spec, ltb_spec. unfold SFeqb, SFltb.
  destruct (Prim2SF x) as [s|s| |s m e] eqn:E; try reflexivity; intros H;
    rewrite SFcompare_refl in H; discriminate.
Qed.

(** A number that is not at most another one is above it. *)
Lemma not_leb_ltb (x y : float) :
  (x =? x) = true -> (y =? y) = true -> (x <=? y) = false -> (y <? x) = true.
Proof.
  rewrite !eqb_spec, leb_spec, ltb_spec. unfold SFeqb, SFleb, SFltb.
  rewrite (SFcompare_antisym (Prim2SF x) (Prim2SF y)).
  destruct (Prim2SF x) as [sx|sx| |sx mx ex], (Prim2SF y) as [sy|sy| |sy my ey];
    simpl; try discriminate; intros _ _;
    try destruct sx; try destruct sy; simpl; try discriminate;
    try reflexivity;
    match goal with
    | |- context [(?a ?= ?b)%Z] => destruct (a ?= b)%Z
    end; simpl; try discriminate; try reflexivity;
    match goal with
    | |- context [Pos.compare_cont Eq ?a ?b] =>
        destruct (Pos.compare_cont Eq a b)
    end; simpl; try discriminate; reflexivity.
Qed.

End FloatOrderTrans.

(** ** Rounding of a product *)









Section Percent.

Local Open Scope float_scope.



End Percent.

(** ** [ensure_state] *)

(** X1: [ensure_state] creates the three session entries that are missing
    and never overwrites one that exists; running it again changes
    nothing. *)
Theorem ensure_state_idempotent (s : session_state) :
  ensure_state (ensure_state s) = ensure_state s
  /\ (exists l f r, ensure_state s = mkSession (Some l) (Some f) (Some r))
  /\ (forall l, assessments s = Some l -> assessments (ensure_state s) = Some l)
  /\ (forall f, current_form s = Some f -> current_form (ensure_state s) = Some f)
  /\ (forall r, current_result s = Some r ->
      current_result (ensure_state s) = Some r)
  /\ (assessments s = None -> assessments (ensure_state s) = Some [])
  /\ (current_form s = None ->
      current_form (ensure_state s) = Some (mkForm None None None None))
  /\ (current_result s = None -> current_result (ensure_state s) = Some None).
Proof.
  destruct s as [[a|] [f|] [r|]]; cbn;
    (split; [reflexivity|]); (split; [do 3 eexists; reflexivity|]);
    repeat split; intros; congruence.
Qed.

(** ** The Results page *)

(** The three ways a run of the Results page can end. *)
Lemma results_page_cases (now : string) (s : session_state) :
  (exists r p l k,
      current_result s = Some (Some r) /\ prob r = Some p /\ label r = Some l
      /\ round0 (p * 100)%float = Ok k
      /\ Results.page now s = (Ok Rendered, exec (save_assessment now r) s))
  \/ (fst (Results.page now s) <> Ok Rendered
      /\ snd (Results.page now s) = ensure_state s).
Proof.
  destruct (current_result s) as [[r|]|] eqn:Er.
  - destruct (prob r) as [p|] eqn:Ep.
    + destruct (label r) as [l|] eqn:El.
      * destruct (round0 (p * 100)%float) as [k|e] eqn:Ek.
        -- left. exists r, p, l, k. repeat split; try assumption.
           now apply (results_page_records now s r p l k).
        -- right. unfold Results.page, Results.lookup, Results.falsy. run_st.
           rewrite ensure_state_spec, Er. cbn -[round0]. rewrite Ep, El.
           cbn -[round0]. rewrite Ek. split; [discriminate|reflexivity].
      * right. unfold Results.page, Results.lookup, Results.falsy. run_st.
        rewrite ensure_state_spec, Er. cbn -[round0]. rewrite Ep, El.
        split; [discriminate|reflexivity].
    + right. unfold Results.page, Results.lookup, Results.falsy. run_st.
      rewrite ensure_state_spec, Er. cbn -[round0]. rewrite Ep.
      destruct (label r), (created_at r), (inputs r);
        (split; [discriminate|reflexivity]).
  - right. unfold Results.page. run_st. rewrite ensure_state_spec, Er.
    split; [discriminate|reflexivity].
  - right. unfold Results.page. run_st. rewrite ensure_state_spec, Er.
    split; [discriminate|reflexivity].
Qed.



(** ** Invariants of a session *)

(** What a run of the assessment page does to the current result: it
    leaves it as [ensure_state] made it, or stores the score of the form
    together with its label. *)
Lemma risk_page_result (_model : option predictor) (w : Risk.widgets)
    (now : string) (s : session_state) :
  current_result (exec (Risk.page _model w now) s)
  = current_result (ensure_state s)
  \/ exists p form,
       model_predict_prob _model form = Ok p
       /\ current_result (exec (Risk.page _model w now) s)
          = Some (Some (mkResult (Some p) (Some (label_from_prob p))
                                 (Some now) (Some form))).
Proof.
  unfold exec, Risk.page, Risk.collect, Risk.form_assign, Risk.on_submit.
  run_st.
  rewrite ensure_state_spec.
  cbn -[calc_bmi Risk.complete model_predict_prob truthy_float].
  destruct (truthy_float (Risk.w_weight w) && truthy_float (Risk.w_height w));
    [destruct (calc_bmi (Some (Risk.w_weight w)) (Some (Risk.w_height w)))
       as [b|e]; [|now left] | ];
    cbn -[calc_bmi Risk.complete model_predict_prob truthy_float];
    (destruct (Risk.submitted w); [|now left]);
    cbn -[calc_bmi Risk.complete model_predict_prob truthy_float];
    (match goal with
     | |- context [Risk.complete ?f] => destruct (Risk.complete f)
     end; [|now left]);
    cbn -[calc_bmi Risk.complete model_predict_prob truthy_float];
    (match goal with
     | |- context [model_predict_prob ?m ?f] =>
         destruct (model_predict_prob m f) as [p|e'] eqn:Ep
     end; [right; exists p; eexists; split; [exact Ep|reflexivity] | now left]).
Qed.

(** Whatever the predictor returns normally is a probability. *)
Lemma fallback_score_in_unit (features : Form) (p : float) :
  fallback_score features = Ok p -> in_unit_interval p.
Proof.
  unfold fallback_score.
  destruct (30 <? age_or_0 features).
  - destruct (float_of_int (age_or_0 features - 30)); simpl; [|discriminate].
    intros [= <-]. apply clamp_in_unit_interval.
  - simpl. intros [= <-]. apply clamp_in_unit_interval.
Qed.

Lemma model_predict_prob_in_unit (_model : option predictor) (features : Form)
    (p : float) :
  model_predict_prob _model features = Ok p -> in_unit_interval p.
Proof.
  unfold model_predict_prob.
  destruct _model as [m|]; [|apply fallback_score_in_unit].
  destruct (m _) as [prob|e]; [|apply fallback_score_in_unit].
  intros [= <-]. apply clamp_in_unit_interval.
Qed.

(** One event adds records at the end of the history, and only a run of
    the Results page adds one. *)
Lemma step_history (_model : option predictor) (e : Workflow.event)
    (s : session_state) :
  exists l,
    history (Workflow.step _model e s) = (history s ++ l)%list
    /\ (List.length l <= Workflow.results_runs [e])%nat.
Proof.
  destruct e as [w now|now| |]; cbn [Workflow.step Workflow.results_runs].
  - exists []. rewrite app_nil_r. split; [apply risk_page_keeps_history|].
    simpl; lia.
  - destruct (results_page_cases now s)
      as [[r [p [l [k [_ [_ [_ [_ E]]]]]]]] | [_ E]]; unfold exec.
    + rewrite E. cbn [snd]. exists [record_of now r (form_of s)].
      split; [apply save_assessment_history | simpl; lia].
    + rewrite E. exists []. rewrite app_nil_r, ensure_state_spec.
      split; [reflexivity | simpl; lia].
  - exists []. rewrite app_nil_r, ensure_state_spec.
    split; [reflexivity | simpl; lia].
  - exists []. rewrite app_nil_r. split; [reflexivity | simpl; lia].
Qed.

Lemma results_runs_cons (e : Workflow.event) (es : list Workflow.event) :
  Workflow.results_runs (e :: es)
  = (Workflow.results_runs [e] + Workflow.results_runs es)%nat.
Proof. destruct e; reflexivity. Qed.

(** X4: the history is append-only.  Through any sequence of page runs
    and calls of [clear_current] the records present at the start stay at
    the head of the list, in their order, and at most one record is added
    per run of the Results page. *)
Theorem history_is_append_only (_model : option predictor)
    (es : list Workflow.event) (s : session_state) :
  exists l,
    history (Workflow.run _model es s) = (history s ++ l)%list
    /\ (List.length l <= Workflow.results_runs es)%nat.
Proof.
  revert s. induction es as [|e es IH]; intros s.
  - exists []. rewrite app_nil_r. split; [reflexivity | simpl; lia].
  - cbn [Workflow.run].
    destruct (step_history _model e s) as [l1 [H1 L1]].
    destruct (IH (Workflow.step _model e s)) as [l2 [H2 L2]].
    exists (l1 ++ l2)%list. rewrite H2, H1, <- app_assoc.
    split; [reflexivity|].
    rewrite length_app, results_runs_cons. lia.
Qed.

Lemma ensure_state_ok (s : session_state) :
  Workflow.session_ok s -> Workflow.session_ok (ensure_state s).
Proof.
  unfold Workflow.session_ok, Workflow.consistent_current.
  rewrite ensure_state_spec. cbn.
  destruct (current_result s) as [[r|]|]; intros [H1 H2]; split; auto.
Qed.

Lemma step_ok (_model : option predictor) (e : Workflow.event)
    (s : session_state) :
  Workflow.session_ok s -> Workflow.session_ok (Workflow.step _model e s).
Proof.
  intros Hs. pose proof (ensure_state_ok s Hs) as [He1 He2].
  destruct Hs as [Hh Hc].
  destruct e as [w now|now| |]; cbn [Workflow.step].
  - split; [now rewrite risk_page_keeps_history|].
    unfold Workflow.consistent_current in *.
    destruct (risk_page_result _model w now s) as [-> | [p [form [Hp ->]]]];
      [exact He2|].
    exists p. cbn. split; [reflexivity|]. split; [|reflexivity].
    now apply (model_predict_prob_in_unit _model form).
  - destruct (results_page_cases now s)
      as [[r [p [l [k [Er [_ [_ [_ E]]]]]]]] | [_ E]]; unfold exec; rewrite E;
      [|split; assumption].
    cbn [snd]. split.
    + fold (exec (save_assessment now r) s). rewrite save_assessment_history.
      apply Forall_app. split; [assumption|]. constructor; [|constructor].
      unfold Workflow.consistent_current in Hc. rewrite Er in Hc.
      destruct Hc as [q [Hq [Hu Hl]]]. exists q. cbn. auto.
    + unfold Workflow.consistent_current, exec.
      rewrite save_assessment_run. cbn. exact He2.
  - split; assumption.
  - split; [exact Hh | exact I].
Qed.

(** X5: in a session that starts empty, every record of the history and
    the current result, after any sequence of events and with any model,
    carry a probability in the unit interval and the label that
    [label_from_prob] gives to that probability. *)
Theorem history_is_consistent (_model : option predictor)
    (es : list Workflow.event) :
  Forall Workflow.consistent_record
    (history (Workflow.run _model es Scenario.fresh))
  /\ Workflow.consistent_current (Workflow.run _model es Scenario.fresh).
Proof.
  assert (G : forall s, Workflow.session_ok s -> Workflow.session_ok (Workflow.run _model es s)).
  { induction es as [|e es IH]; intros s Hs; [exact Hs|].
    cbn [Workflow.run]. apply IH. now apply step_ok. }
  apply (G Scenario.fresh). split; [constructor | exact I].
Qed.

(** ** From a submission to its record *)










(** ** More on the BMI calculator *)

Lemma calc_bmi_unavailable_witness :
  (exists x, Some (-170)%float = Some x /\ (x <=? 0)%float = true)
  /\ calc_bmi (Some 70%float) (Some (-170)%float) = Ok None.
Proof.
  assert (H : exists x, Some (-170)%float = Some x /\ (x <=? 0)%float = true)
    by (exists (-170)%float; split; reflexivity).
  split; [exact H|].
  exact (calc_bmi_unavailable (Some 70%float) (Some (-170)%float)
           (or_intror (or_intror H))).
Defined.

Section BmiErrors.

Local Open Scope float_scope.

(** A product that is zero has no [nan] factor, and a quotient by 100
    that is not [nan] comes from a number. *)
Lemma square_zero_not_nan (x : float) : (x * x =? 0) = true -> (x =? x) = true.
Proof.
  rewrite !eqb_spec, mul_spec. unfold SF64mul, SFeqb.
  destruct (Prim2SF x) as [s|s| |s m e] eqn:E.
  - reflexivity.
  - now destruct s.
  - discriminate.
  - intros _. rewrite SFcompare_refl; [reflexivity|discriminate].
Qed.

Lemma div_100_not_nan (x : float) : (x / 100 =? x / 100) = true -> (x =? x) = true.
Proof.
  rewrite !eqb_spec, div_spec. unfold SF64div, SFeqb.
  destruct (Prim2SF x) as [s|s| |s m e] eqn:E.
  - reflexivity.
  - now destruct s.
  - replace (Prim2SF 100) with (S754_finite false 7036874417766400 (-46))
      by reflexivity.
    discriminate.
  - intros _. rewrite SFcompare_refl; [reflexivity|discriminate].
Qed.

(** X10: the only exception [calc_bmi] can raise is [ZeroDivisionError],
    and it raises it only on a height above zero so small that the square
    of the height in metres underflows to zero. *)
Theorem calc_bmi_raises_only_on_underflow (w h : option float) (e : exn)
    (Hr : calc_bmi w h = Raise e) :
  e = ZeroDivisionError
  /\ exists x y, w = Some x /\ h = Some y /\ (0 <? y) = true
                 /\ (y / 100 * (y / 100) =? 0) = true.
Proof.
  unfold calc_bmi in Hr.
  destruct w as [x|]; [|discriminate]. destruct h as [y|]; [|discriminate].
  destruct (negb (truthy_float x) || negb (truthy_float y) || (y <=? 0))
    eqn:G; [discriminate|].
  destruct (y / 100 * (y / 100) =? 0) eqn:D; [|discriminate].
  injection Hr as <-. split; [reflexivity|].
  exists x, y. split; [reflexivity|]. split; [reflexivity|].
  split; [|exact D].
  apply orb_false_elim in G. destruct G as [_ G].
  apply not_leb_ltb; [|reflexivity|exact G].
  apply div_100_not_nan, square_zero_not_nan, D.
Qed.

Lemma calc_bmi_raises_only_on_underflow_witness :
  calc_bmi (Some 70) (Some 1e-200) = Raise ZeroDivisionError
  /\ (0 <? 1e-200) = true /\ (1e-200 / 100 * (1e-200 / 100) =? 0) = true.
Proof.
  assert (Hr : calc_bmi (Some 70) (Some 1e-200) = Raise ZeroDivisionError)
    by (vm_compute; reflexivity).
  split; [exact Hr|].
  destruct (calc_bmi_raises_only_on_underflow (Some 70) (Some 1e-200)
              ZeroDivisionError Hr) as [_ [x [y [_ [Hy [H0 H1]]]]]].
  injection Hy as <-. split; [exact H0 | exact H1].
Defined.

End BmiErrors.

(** ** More on the predictor and the classifier *)

Section PredictorEdges.

Local Open Scope float_scope.

(** X11: what the clamp does to the answer of a model.  An answer
    strictly between 0 and 1 is returned as it is; an answer that is not
    below 1, and [nan] is not, becomes 1.0 and is labelled High; an answer
    below 1 that is not above 0 becomes 0.0 and is labelled Low. *)
Theorem model_answer_is_clamped (m : predictor) (features : Form)
    (answer : float)
    (Hm : m [[num_of_int (age features); num_of_float (bmi features)]]
          = Ok answer) :
  ((0 <? answer) = true -> (answer <? 1) = true ->
   model_predict_prob (Some m) features = Ok answer)
  /\ ((answer <? 1) = false ->
      model_predict_prob (Some m) features = Ok 1
      /\ label_from_prob 1 = "High")
  /\ ((answer =? answer) = false ->
      model_predict_prob (Some m) features = Ok 1)
  /\ ((answer <? 1) = true -> (0 <? answer) = false ->
      model_predict_prob (Some m) features = Ok 0
      /\ label_from_prob 0 = "Low").
Proof.
  unfold model_predict_prob. rewrite Hm. unfold Py.max, Py.min.
  split; [intros H0 H1; now rewrite H1, H0|].
  split; [intros H1; rewrite H1; split; reflexivity|].
  split; [intros Hn; now rewrite (nan_not_below answer 1 Hn)|].
  intros H1 H0. rewrite H1, H0. split; reflexivity.
Qed.

Lemma model_answer_is_clamped_witness :
  Scenario.overconfident
    [[num_of_int (age Scenario.features_50);
      num_of_float (bmi Scenario.features_50)]] = Ok 1.7
  /\ model_predict_prob (Some Scenario.overconfident) Scenario.features_50 = Ok 1.
Proof.
  split; [reflexivity|].
  exact (proj1 (proj1 (proj2 (model_answer_is_clamped Scenario.overconfident
                                Scenario.features_50 1.7 eq_refl))
                  eq_refl)).
Defined.

(** X12: without a model, a profile whose age is missing or at most 30
    and whose BMI is missing or not above 25 scores exactly 0.0 and is
    labelled Low. *)
Theorem young_and_lean_scores_zero (features : Form)
    (Hage : match age features with Some a => (a <= 30)%Z | None => True end)
    (Hbmi : match bmi features with
            | Some b => (25 <? b) = false
            | None => True
            end) :
  model_predict_prob None features = Ok 0
  /\ label_from_prob 0 = "Low".
Proof.
  split; [|reflexivity].
  unfold model_predict_prob, fallback_score.
  assert (Ha : (30 <? age_or_0 features)%Z = false).
  { apply Z.ltb_ge. unfold age_or_0.
    destruct (age features) as [a|]; [|lia]. destruct (truthy_int a); lia. }
  assert (Hb : (25 <? bmi_or_0 features) = false).
  { unfold bmi_or_0. destruct (bmi features) as [b|]; [|reflexivity].
    destruct (truthy_float b); [exact Hbmi | reflexivity]. }
  rewrite Ha, Hb. reflexivity.
Qed.

Lemma young_and_lean_scores_zero_witness :
  (25 <= 30)%Z /\ (25 <? 19.6) = false
  /\ model_predict_prob None
       (mkForm (Some 25%Z) (Some 60) (Some 175) (Some 19.6)) = Ok 0.
Proof.
  assert (Ha : (25 <= 30)%Z) by lia.
  split; [exact Ha|]. split; [reflexivity|].
  exact (proj1 (young_and_lean_scores_zero
                  (mkForm (Some 25%Z) (Some 60) (Some 175) (Some 19.6))
                  Ha eq_refl)).
Defined.

(** X13: the classifier is monotone: of two probabilities the larger
    one never gets the lower tier. *)
Theorem label_from_prob_monotone (p q : float) (Hpq : (p <=? q) = true) :
  (Workflow.rank (label_from_prob p) <= Workflow.rank (label_from_prob q))%Z.
Proof.
  unfold label_from_prob.
  destruct (q <? 0.34) eqn:Q1.
  - rewrite (leb_ltb_trans p q 0.34 Hpq Q1). reflexivity.
  - destruct (q <? 0.67) eqn:Q2.
    + rewrite (leb_ltb_trans p q 0.67 Hpq Q2).
      destruct (p <? 0.34); vm_compute; discriminate.
    + destruct (p <? 0.34); [vm_compute; discriminate|].
      destruct (p <? 0.67); vm_compute; discriminate.
Qed.

Lemma label_from_prob_monotone_witness :
  (0.25 <=? 0.358) = true
  /\ (Workflow.rank (label_from_prob 0.25)
      <= Workflow.rank (label_from_prob 0.358))%Z.
Proof.
  split; [reflexivity|].
  exact (label_from_prob_monotone 0.25 0.358 eq_refl).
Defined.

End PredictorEdges.

(** ** More on the point-score classifier *)

(** The float computation of the percentage agrees with the integer
    formula on every score above 30 that the points can reach. *)
Lemma scaled_percentage_exact (score : Z) :
  30 < score <= 125 ->
  (if score <=? 60 then Leggo.scaled_percentage 30 1.5 60 score
   else Leggo.scaled_percentage 60 1.2 90 score)
  = Ok (LeggoSpec.exact_percentage score).
Proof.
  intros H.
  assert (A : forallb
                (fun n =>
                   match (if Z.of_nat n <=? 60
                          then Leggo.scaled_percentage 30 1.5 60 (Z.of_nat n)
                          else Leggo.scaled_percentage 60 1.2 90 (Z.of_nat n))
                   with
                   | Ok k => k =? LeggoSpec.exact_percentage (Z.of_nat n)
                   | Raise _ => false
                   end) (seq 31 95) = true) by (vm_compute; reflexivity).
  rewrite forallb_forall in A. specialize (A (Z.to_nat score)).
  rewrite Z2Nat.id in A by lia.
  assert (I : In (Z.to_nat score) (seq 31 95)) by (apply in_seq; lia).
  specialize (A I).
  destruct (if score <=? 60 then Leggo.scaled_percentage 30 1.5 60 score
            else Leggo.scaled_percentage 60 1.2 90 score) as [k|e];
    [|discriminate].
  apply Z.eqb_eq in A. now rewrite A.
Qed.

(** X14: [calculate_risk_score] never raises; its score lies between 0
    and 125, its level is cut at 30 and at 60 points, and its percentage,
    computed in floating point, is the one exact arithmetic gives: at most
    25 for a low risk, from 31 to 60 for a medium one, from 61 to 90 for a
    high one. *)
Theorem calculate_risk_score_exact (u : Leggo.user_data) :
  Leggo.calculate_risk_score u
  = Ok (Leggo.points u, LeggoSpec.level_of (Leggo.points u),
        LeggoSpec.exact_percentage (Leggo.points u))
  /\ 0 <= Leggo.points u <= 125
  /\ (Leggo.points u <= 30 ->
      0 <= LeggoSpec.exact_percentage (Leggo.points u) <= 25)
  /\ (30 < Leggo.points u <= 60 ->
      31 <= LeggoSpec.exact_percentage (Leggo.points u) <= 60)
  /\ (60 < Leggo.points u ->
      61 <= LeggoSpec.exact_percentage (Leggo.points u) <= 90).
Proof.
  pose proof (points_bounds u) as B.
  split; [|split; [exact B|]].
  - unfold Leggo.calculate_risk_score, LeggoSpec.level_of.
    destruct (Leggo.points u <=? 30) eqn:E30.
    + unfold LeggoSpec.exact_percentage.
      now rewrite E30, (Z.mul_comm 2 (Leggo.points u)).
    + apply Z.leb_gt in E30.
      pose proof (scaled_percentage_exact (Leggo.points u) ltac:(lia)) as S.
      destruct (Leggo.points u <=? 60); rewrite S; reflexivity.
  - unfold LeggoSpec.exact_percentage.
    (split; [|split]); intros Hs;
      repeat match goal with
             | |- context [?a <=? ?b] => destruct (Z.leb_spec a b)
             end; Z.to_euclidean_division_equations; lia.
Qed.

(** The score is the sum of six independent contributions. *)
Lemma points_sum (u : Leggo.user_data) :
  Leggo.points u
  = LeggoSpec.age_points (Leggo.get (Leggo.ud_age u) 0)
    + LeggoSpec.bmi_points (Leggo.get (Leggo.ud_bmi u) 0%float)
    + LeggoSpec.flag_points (Leggo.get (Leggo.family_history u) false) 25
    + LeggoSpec.flag_points (negb (Leggo.get (Leggo.regular_exercise u) true)) 15
    + LeggoSpec.flag_points (Leggo.get (Leggo.high_bp u) false) 15
    + LeggoSpec.flag_points (Leggo.get (Leggo.high_glucose u) false) 20.
Proof.
  unfold Leggo.points, LeggoSpec.age_points, LeggoSpec.bmi_points,
    LeggoSpec.flag_points.
  repeat match goal with
         | |- context [if ?c then _ else _] => destruct c
         end; lia.
Qed.

Lemma age_points_monotone (a1 a2 : Z) :
  a1 <= a2 -> LeggoSpec.age_points a1 <= LeggoSpec.age_points a2.
Proof.
  intros H. unfold LeggoSpec.age_points.
  destruct (Z.leb_spec 45 a1), (Z.leb_spec 45 a2),
    (Z.leb_spec 35 a1), (Z.leb_spec 35 a2); lia.
Qed.

Lemma bmi_points_monotone (b1 b2 : float) :
  (b1 <=? b2)%float = true ->
  LeggoSpec.bmi_points b1 <= LeggoSpec.bmi_points b2.
Proof.
  intros H. unfold LeggoSpec.bmi_points.
  destruct (30 <=? b1)%float eqn:E30.
  - rewrite (leb_trans 30 b1 b2 E30 H). lia.
  - destruct (25 <=? b1)%float eqn:E25.
    + rewrite (leb_trans 25 b1 b2 E25 H). destruct (30 <=? b2)%float; lia.
    + destruct (23 <=? b1)%float eqn:E23.
      * rewrite (leb_trans 23 b1 b2 E23 H).
        destruct (30 <=? b2)%float, (25 <=? b2)%float; lia.
      * destruct (30 <=? b2)%float, (25 <=? b2)%float, (23 <=? b2)%float; lia.
Qed.

Lemma flag_points_monotone (f1 f2 : bool) (pts : Z) :
  0 <= pts -> (f1 = true -> f2 = true) ->
  LeggoSpec.flag_points f1 pts <= LeggoSpec.flag_points f2 pts.
Proof.
  intros Hp H. unfold LeggoSpec.flag_points.
  destruct f1, f2; try lia; discriminate (H eq_refl).
Qed.

(** X15: more risk never scores less.  Of two sets of answers, the one
    with the higher age, the higher BMI and every risk factor of the other
    (a family history, no regular exercise, high blood pressure, a previous
    high glucose reading) gets at least as many points, hence at least as
    high a percentage. *)
Theorem points_monotone (u1 u2 : Leggo.user_data)
    (Hage : Leggo.get (Leggo.ud_age u1) 0 <= Leggo.get (Leggo.ud_age u2) 0)
    (Hbmi : (Leggo.get (Leggo.ud_bmi u1) 0 <=? Leggo.get (Leggo.ud_bmi u2) 0)%float
            = true)
    (Hfh : Leggo.get (Leggo.family_history u1) false = true ->
           Leggo.get (Leggo.family_history u2) false = true)
    (Hex : Leggo.get (Leggo.regular_exercise u2) true = true ->
           Leggo.get (Leggo.regular_exercise u1) true = true)
    (Hbp : Leggo.get (Leggo.high_bp u1) false = true ->
           Leggo.get (Leggo.high_bp u2) false = true)
    (Hgl : Leggo.get (Leggo.high_glucose u1) false = true ->
           Leggo.get (Leggo.high_glucose u2) false = true) :
  Leggo.points u1 <= Leggo.points u2
  /\ LeggoSpec.exact_percentage (Leggo.points u1)
     <= LeggoSpec.exact_percentage (Leggo.points u2).
Proof.
  assert (P : Leggo.points u1 <= Leggo.points u2).
  { rewrite (points_sum u1), (points_sum u2).
    pose proof (age_points_monotone _ _ Hage).
    pose proof (bmi_points_monotone _ _ Hbmi).
    pose proof (flag_points_monotone _ _ 25 ltac:(lia) Hfh).
    pose proof (flag_points_monotone _ _ 15 ltac:(lia) Hbp).
    pose proof (flag_points_monotone _ _ 20 ltac:(lia) Hgl).
    assert (Hne : negb (Leggo.get (Leggo.regular_exercise u1) true) = true ->
                  negb (Leggo.get (Leggo.regular_exercise u2) true) = true).
    { destruct (Leggo.get (Leggo.regular_exercise u1) true),
        (Leggo.get (Leggo.regular_exercise u2) true); simpl; intros;
        try reflexivity; try discriminate.
      discriminate (Hex eq_refl). }
    pose proof (flag_points_monotone _ _ 15 ltac:(lia) Hne).
    lia. }
  split; [exact P|].
  pose proof (points_bounds u1). pose proof (points_bounds u2).
  unfold LeggoSpec.exact_percentage.
  destruct (Z.leb_spec (Leggo.points u1) 30), (Z.leb_spec (Leggo.points u2) 30),
    (Z.leb_spec (Leggo.points u1) 60), (Z.leb_spec (Leggo.points u2) 60);
    Z.to_euclidean_division_equations; lia.
Qed.

Lemma points_monotone_witness :
  Leggo.points (Leggo.mkUserData (Some 40) (Some 24%float) None None None None)
  <= Leggo.points Scenario.profile_points.
Proof.
  refine (proj1 (points_monotone
                   (Leggo.mkUserData (Some 40) (Some 24%float) None None None None)
                   Scenario.profile_points _ _ _ _ _ _)).
  - simpl. unfold Scenario.profile_age. lia.
  - reflexivity.
  - simpl. discriminate.
  - reflexivity.
  - simpl. discriminate.
  - simpl. discriminate.
Defined.

(** ** The Home page *)

(** X16: every run of the Home page raises [TypeError] when it asks for
    its welcome text, whether or not the Start Assessment button is
    pressed: the page only gets as far as creating the session entries. *)
Theorem home_page_raises (start : bool) (s : session_state) :
  Home.page start s = (Raise TypeError, ensure_state s).
Proof. reflexivity. Qed.
